(** * PKI 2FA microservice: TOTP engine and HTTP boundary

    The development has two parts.

    - [TotpEngine]: the code generation and verification algorithm
      (RFC 6238 over RFC 4226), with SHA-1 and HMAC written out over bytes
      held as [Z].
    - [Main]: the three handlers of [app/main.py] ([decrypt_seed_endpoint],
      [generate_2fa], [verify_2fa]) as functions on an explicit world that
      holds the seed file and the trace of the calls made so far. *)

From Stdlib Require Import ZArith List String Ascii Bool Lia.
Import ListNotations.

Open Scope Z_scope.

(** ** Results of fallible code *)

Inductive result (E A : Type) : Type :=
| Ok (a : A)
| Err (e : E).

Arguments Ok {E A} a.
Arguments Err {E A} e.

Definition bind {E A B : Type} (r : result E A) (k : A -> result E B)
  : result E B :=
  match r with
  | Ok a => k a
  | Err e => Err e
  end.

Fixpoint collect {E A : Type} (rs : list (result E A)) : result E (list A) :=
  match rs with
  | [] => Ok []
  | r :: rest =>
      bind r (fun a => bind (collect rest) (fun l => Ok (a :: l)))
  end.

(** ** Bytes and words *)

Module Bytes.

(** [n] bytes of [v], most significant first. *)
Fixpoint be_bytes (n : nat) (v : Z) : list Z :=
  match n with
  | O => []
  | S k => Z.land (Z.shiftr v (8 * Z.of_nat k)) 255 :: be_bytes k v
  end.

(** The unsigned integer a big-endian byte string denotes. *)
Definition be_value (bs : list Z) : Z :=
  fold_left (fun acc b => acc * 256 + b) bs 0.

(** Cut a list into consecutive pieces of [size] elements; [fuel] bounds
    the number of pieces. *)
Fixpoint chunks {A : Type} (fuel size : nat) (l : list A) : list (list A) :=
  match fuel with
  | O => []
  | S f =>
      match l with
      | [] => []
      | _ => firstn size l :: chunks f size (skipn size l)
      end
  end.

Definition hex_digit (c : ascii) : option Z :=
  let n := Z.of_nat (nat_of_ascii c) in
  if (48 <=? n) && (n <=? 57) then Some (n - 48)
  else if (97 <=? n) && (n <=? 102) then Some (n - 87)
  else if (65 <=? n) && (n <=? 70) then Some (n - 55)
  else None.

(** Two hexadecimal digits per byte; [None] on an odd length or on a
    character that is not a hexadecimal digit. *)
Fixpoint hex_decode (s : string) : option (list Z) :=
  match s with
  | EmptyString => Some []
  | String _ EmptyString => None
  | String hi (String lo rest) =>
      match hex_digit hi, hex_digit lo, hex_decode rest with
      | Some h, Some l, Some bs => Some (16 * h + l :: bs)
      | _, _, _ => None
      end
  end.

End Bytes.

(** ** SHA-1 (FIPS 180-4) and HMAC (RFC 2104) *)

Module Sha1.
Import Bytes.

Definition mask32 : Z := 4294967295.

Definition add32 (x y : Z) : Z := Z.land (x + y) mask32.

Definition rotl32 (n x : Z) : Z :=
  Z.land (Z.lor (Z.shiftl x n) (Z.shiftr x (32 - n))) mask32.

Definition not32 (x : Z) : Z := Z.lxor x mask32.

(** Message, one [0x80] byte, zeros up to 56 modulo 64, then the bit
    length on eight bytes. *)
Definition pad (msg : list Z) : list Z :=
  let l := Z.of_nat (List.length msg) in
  msg ++ [128] ++ repeat 0 (Z.to_nat ((55 - l) mod 64)) ++ be_bytes 8 (8 * l).

(** The words [w16 ..] of the message schedule; [recent] holds the words
    produced so far, latest first. *)
Fixpoint schedule (n : nat) (recent : list Z) : list Z :=
  match n with
  | O => []
  | S k =>
      let w :=
        rotl32 1
          (Z.lxor (Z.lxor (nth 2 recent 0) (nth 7 recent 0))
                  (Z.lxor (nth 13 recent 0) (nth 15 recent 0))) in
      w :: schedule k (w :: firstn 15 recent)
  end.

Record state : Type := mkState { ha : Z; hb : Z; hc : Z; hd : Z; he : Z }.

Definition init : state :=
  mkState 1732584193 4023233417 2562383102 271733878 3285377520.

Definition round_f (t : Z) (b c d : Z) : Z :=
  if t <? 20 then Z.lor (Z.land b c) (Z.land (not32 b) d)
  else if t <? 40 then Z.lxor (Z.lxor b c) d
  else if t <? 60 then Z.lor (Z.lor (Z.land b c) (Z.land b d)) (Z.land c d)
  else Z.lxor (Z.lxor b c) d.

Definition round_k (t : Z) : Z :=
  if t <? 20 then 1518500249
  else if t <? 40 then 1859775393
  else if t <? 60 then 2400959708
  else 3395469782.

Definition round (s : state) (tw : nat * Z) : state :=
  let t := Z.of_nat (fst tw) in
  let tmp :=
    add32 (add32 (add32 (add32 (rotl32 5 (ha s))
                               (round_f t (hb s) (hc s) (hd s)))
                        (he s))
                 (round_k t))
          (snd tw) in
  mkState tmp (ha s) (rotl32 30 (hb s)) (hc s) (hd s).

Definition compress (h : state) (block : list Z) : state :=
  let w16 := map be_value (chunks 16 4 block) in
  let ws := w16 ++ schedule 64 (rev w16) in
  let s := fold_left round (combine (seq 0 80) ws) h in
  mkState (add32 (ha h) (ha s)) (add32 (hb h) (hb s)) (add32 (hc h) (hc s))
          (add32 (hd h) (hd s)) (add32 (he h) (he s)).

(** Modelled from the spec: the hash under the HMAC-SHA1 that the spec
    names; the sources leave it to a library. The 160-bit digest of FIPS
    180-4, as 20 bytes. *)
Definition sha1 (msg : list Z) : list Z :=
  let p := pad msg in
  let h := fold_left compress (chunks (List.length p) 64 p) init in
  be_bytes 4 (ha h) ++ be_bytes 4 (hb h) ++ be_bytes 4 (hc h)
    ++ be_bytes 4 (hd h) ++ be_bytes 4 (he h).

Definition block_size : nat := 64.

(** Modelled from the spec: [HMAC-SHA1(secretBytes, counterBytes)], which
    the sources leave to a library, as RFC 2104 defines it: a key longer
    than a block is hashed first, then padded with zeros to a block. *)
Definition hmac_sha1 (key msg : list Z) : list Z :=
  let k0 := if (List.length key <=? block_size)%nat then key else sha1 key in
  let k := k0 ++ repeat 0 (block_size - List.length k0)%nat in
  let ikey := map (Z.lxor 54) k in
  let okey := map (Z.lxor 92) k in
  sha1 (okey ++ sha1 (ikey ++ msg)).

End Sha1.

(** ** TotpEngine *)

Module TotpEngine.
Import Bytes Sha1.

Inductive error : Type :=
| TotpComputeError
| ValidationError.

Definition default_digits : nat := 6.
Definition default_step : Z := 30.
Definition default_window : nat := 1.

Definition char_code (c : ascii) : Z := Z.of_nat (nat_of_ascii c).

Definition is_digit (c : ascii) : bool :=
  (48 <=? char_code c) && (char_code c <=? 57).

Fixpoint all_digits (s : string) : bool :=
  match s with
  | EmptyString => true
  | String c r => is_digit c && all_digits r
  end.

Definition digit_char (d : Z) : ascii := ascii_of_nat (Z.to_nat (48 + d)).

(** Modelled from the spec: the rendering of a code, absent from the
    sources with the rest of [app/totp_utils.py]: a zero-padded decimal
    string of length [digits]. *)
Fixpoint zero_padded (digits : nat) (v : Z) : string :=
  match digits with
  | O => EmptyString
  | S k =>
      (zero_padded k (v / 10) ++ String (digit_char (v mod 10)) EmptyString)%string
  end.

(** Modelled from the spec: the decoding of the secret, absent from the
    sources: [secretHex] to raw bytes, [TotpComputeError] if it is not
    valid hexadecimal or decodes to zero bytes. *)
Definition decode_secret (secretHex : string) : result error (list Z) :=
  match hex_decode secretHex with
  | Some (b :: bs) => Ok (b :: bs)
  | Some [] => Err TotpComputeError
  | None => Err TotpComputeError
  end.

(** Modelled from the spec: dynamic truncation, absent from the sources:
    the low 4 bits of the last byte are the offset [o], the 4 bytes at
    [digest[o:o+4]] are read big-endian and bit 31 is cleared. *)
Definition truncate (digest : list Z) : Z :=
  let o := Z.to_nat (Z.land (last digest 0) 15) in
  Z.land (be_value (firstn 4 (skipn o digest))) 2147483647.

(** Modelled from the spec: the HOTP value of RFC 4226, absent from the
    sources: HMAC-SHA1 of the counter on 8 big-endian bytes, truncated,
    modulo [10^digits], zero-padded. *)
Definition hotp (key : list Z) (counter : Z) (digits : nat) : string :=
  let digest := hmac_sha1 key (be_bytes 8 counter) in
  zero_padded digits (truncate digest mod 10 ^ Z.of_nat digits).

(** Modelled from the spec: contract A of the TotpEngine, absent from the
    sources ([generate_totp_code] of [app/totp_utils.py]):
    [counter = floor(atTime / stepSeconds)]. *)
Definition generate (secretHex : string) (atTime : Z)
           (digits : nat) (stepSeconds : Z) : result error string :=
  bind (decode_secret secretHex)
       (fun key => Ok (hotp key (atTime / stepSeconds) digits)).

(** The offsets [-window, ..., window]. *)
Definition offsets (window : nat) : list Z :=
  map (fun i => Z.of_nat i - Z.of_nat window) (seq 0 (2 * window + 1)).

(** Comparison that reads every character of both strings: the
    differences are accumulated with [lor] and tested once at the end. *)
Fixpoint ct_diff (a b : string) (acc : Z) : Z :=
  match a, b with
  | EmptyString, EmptyString => acc
  | String x a', String y b' =>
      ct_diff a' b' (Z.lor acc (Z.lxor (char_code x) (char_code y)))
  | _, _ => Z.lor acc 1
  end.

Definition ct_eq (a b : string) : bool := ct_diff a b 0 =? 0.

(** A candidate is structurally valid when it is made of exactly the
    expected number of decimal digits (so it is not empty). *)
Definition well_formed (digits : nat) (candidate : string) : bool :=
  (String.length candidate =? digits)%nat && all_digits candidate.

(** Modelled from the spec: contract B of the TotpEngine, absent from the
    sources ([verify_totp_code] of [app/totp_utils.py]): the codes of
    [atTime + k*stepSeconds] for [k] in [[-window, window]] are computed
    and the candidate is compared with each of them. *)
Definition verify (secretHex candidate : string) (atTime : Z)
           (window : nat) (stepSeconds : Z) : result error bool :=
  if well_formed default_digits candidate then
    bind (collect
            (map (fun k => generate secretHex (atTime + k * stepSeconds)
                                    default_digits stepSeconds)
                 (offsets window)))
         (fun codes =>
            Ok (fold_left (fun acc code => orb acc (ct_eq candidate code))
                          codes false))
  else Err ValidationError.

(** Modelled from the spec: contract C of the TotpEngine, absent from the
    sources: [stepSeconds - (atTime mod stepSeconds)]. *)
Definition secondsRemainingInPeriod (atTime stepSeconds : Z) : Z :=
  stepSeconds - atTime mod stepSeconds.

(** A secret is valid when it is hexadecimal and decodes to at least one
    byte. *)
Definition valid_secret (secretHex : string) : Prop :=
  exists key, hex_decode secretHex = Some key /\ key <> [].

Definition rfc_secret : string :=
  "3132333435363738393031323334353637383930".

Definition ascii_bytes (s : string) : list Z :=
  map char_code (list_ascii_of_string s).

End TotpEngine.

(** ** The handlers of [app/main.py] *)

Module Main.

(** *** Python strings *)

(** [str.isspace] on the code points below 256. *)
Definition isspace (c : ascii) : bool :=
  let n := nat_of_ascii c in
  ((9 <=? n) && (n <=? 13) || (28 <=? n) && (n <=? 32)
   || (n =? 133) || (n =? 160))%nat.

Fixpoint lstrip (s : string) : string :=
  match s with
  | EmptyString => EmptyString
  | String c r => if isspace c then lstrip r else s
  end.

Fixpoint rstrip (s : string) : string :=
  match s with
  | EmptyString => EmptyString
  | String c r =>
      match rstrip r with
      | EmptyString => if isspace c then EmptyString else String c EmptyString
      | r' => String c r'
      end
  end.

(** [str.strip()]: whitespace is removed at both ends. *)
Definition strip (s : string) : string := lstrip (rstrip s).

(** A string that is empty or made of whitespace only. *)
Fixpoint all_space (s : string) : bool :=
  match s with
  | EmptyString => true
  | String c r => isspace c && all_space r
  end.

Definition is_lower_hex (c : ascii) : bool :=
  let n := nat_of_ascii c in
  ((48 <=? n) && (n <=? 57) || (97 <=? n) && (n <=? 102))%nat.

(** A string of the characters [0-9a-f]. *)
Fixpoint lower_hex (s : string) : bool :=
  match s with
  | EmptyString => true
  | String c r => is_lower_hex c && lower_hex r
  end.

Definition newline : string := String (ascii_of_nat 10) EmptyString.

Definition cr : ascii := ascii_of_nat 13.
Definition lf : ascii := ascii_of_nat 10.

(** Reading in text mode with the default [newline=None]: a carriage
    return, alone or followed by a line feed, is read as one line feed. *)
Fixpoint universal_newlines (s : string) : string :=
  match s with
  | EmptyString => EmptyString
  | String c r =>
      if Ascii.eqb c cr then
        match r with
        | String d r' =>
            if Ascii.eqb d lf then String lf (universal_newlines r')
            else String lf (universal_newlines r)
        | EmptyString => String lf EmptyString
        end
      else String c (universal_newlines r)
  end.

(** *** Exceptions, requests and responses *)

(** An exception raised by a collaborator; [str_e] is what [f"{e}"]
    renders. *)
Record PyException : Type := mkException { str_e : string }.

Record HTTPException : Type :=
  mkHTTPException { status_code : Z; detail : string }.

Definition seed_missing : HTTPException :=
  mkHTTPException 500 "Seed not decrypted yet".

Definition code_is_missing : HTTPException :=
  mkHTTPException 400 "Missing code".

Record DecryptSeedRequest : Type := { encrypted_seed : string }.

(** [code: str | None = None] *)
Record Verify2FARequest : Type := { code : option string }.

Inductive Response : Type :=
| StatusOk
| CodeResponse (code : string) (valid_for : Z)
| ValidResponse (valid : bool).

(** *** The imported functions

    [load_private_key] and [decrypt_seed] come from [app/crypto_utils.py],
    [generate_totp_code], [verify_totp_code] and
    [seconds_remaining_in_period] from [app/totp_utils.py]; the handlers
    are verified for every implementation of them. Each either returns a
    value or raises. *)
Class Collaborators : Type := {
  PrivateKey : Type;
  load_private_key : string -> result PyException PrivateKey;
  decrypt_seed : string -> PrivateKey -> result PyException string;
  generate_totp_code : string -> result PyException string;
  seconds_remaining_in_period : Z -> result PyException Z;
  verify_totp_code : string -> string -> Z -> result PyException bool
}.

(** *** The world: the seed file and the calls made so far *)

Inductive Event : Type :=
| EvLoadKey (path : string)
| EvDecrypt (ciphertext : string)
| EvWrite (text : string)
| EvExists
| EvRead
| EvGenerate (hex_seed : string)
| EvRemaining (period : Z)
| EvVerify (hex_seed code : string) (valid_window : Z).

(** [seed_file] is the text of [SEED_FILE], [None] while the file does not
    exist. The two flags say whether the file can be opened for reading
    and for writing; a write that is refused leaves the file as it was. *)
Record World : Type := mkWorld {
  seed_file : option string;
  seed_readable : bool;
  seed_writable : bool;
  trace : list Event
}.

Definition log (ev : Event) (w : World) : World :=
  mkWorld (seed_file w) (seed_readable w) (seed_writable w) (trace w ++ [ev]).

(** Two worlds with the same seed file; their traces may differ. *)
Definition same_store (w1 w2 : World) : Prop :=
  seed_file w1 = seed_file w2
  /\ seed_readable w1 = seed_readable w2
  /\ seed_writable w1 = seed_writable w2.

(** Computations that read and write the world and may raise an [E]. *)
Definition M (E A : Type) : Type := World -> result E A * World.

Definition ret {E A : Type} (a : A) : M E A := fun w => (Ok a, w).

Definition raise {E A : Type} (e : E) : M E A := fun w => (Err e, w).

Definition mbind {E A B : Type} (m : M E A) (k : A -> M E B) : M E B :=
  fun w =>
    match m w with
    | (Ok a, w') => k a w'
    | (Err e, w') => (Err e, w')
    end.

Declare Scope py_scope.
Delimit Scope py_scope with py.
Notation "x <- m ;; k" := (mbind m (fun x => k))
  (at level 100, m at next level, right associativity) : py_scope.
Open Scope py_scope.

(** [try: body / except Exception as e: raise handler(e)] *)
Definition try_except {A : Type} (body : M PyException A)
           (handler : PyException -> HTTPException) : M HTTPException A :=
  fun w =>
    match body w with
    | (Ok a, w') => (Ok a, w')
    | (Err e, w') => (Err (handler e), w')
    end.

(** A call of an imported function, recorded in the trace. *)
Definition call {A : Type} (ev : Event) (r : result PyException A)
  : M PyException A :=
  fun w => (r, log ev w).

(** [SEED_FILE.exists()] *)
Definition exists_ {E : Type} : M E bool :=
  fun w => (Ok (match seed_file w with Some _ => true | None => false end),
            log EvExists w).

(** [SEED_FILE.read_text(encoding="utf-8")] *)
Definition read_text : M PyException string :=
  fun w =>
    match seed_file w with
    | Some text =>
        if seed_readable w then (Ok (universal_newlines text), log EvRead w)
        else (Err (mkException "Permission denied"), log EvRead w)
    | None => (Err (mkException "No such file or directory"), log EvRead w)
    end.

(** [SEED_FILE.write_text(text, encoding="utf-8")] *)
Definition write_text (text : string) : M PyException unit :=
  fun w =>
    if seed_writable w then
      (Ok tt, mkWorld (Some text) (seed_readable w) (seed_writable w)
                      (trace w ++ [EvWrite text]))
    else (Err (mkException "Permission denied"), log (EvWrite text) w).

Section Handlers.
Context {C : Collaborators}.

Definition key_file : string := "student_private.pem".

(** [decrypt_seed_endpoint], lines 33-58. *)
Definition decrypt_seed_endpoint (body : DecryptSeedRequest)
  : M HTTPException Response :=
  private_key <-
    try_except (call (EvLoadKey key_file) (load_private_key key_file))
      (fun e => mkHTTPException 500
                  ("Private key load failed: " ++ str_e e)%string) ;;
  hex_seed <-
    try_except (call (EvDecrypt (encrypted_seed body))
                     (decrypt_seed (encrypted_seed body) private_key))
      (fun _ => mkHTTPException 500 "Decryption failed") ;;
  _ <-
    try_except (write_text (hex_seed ++ newline)%string)
      (fun _ => mkHTTPException 500 "Failed to persist seed") ;;
  ret StatusOk.

(** [SEED_FILE.read_text(encoding="utf-8").strip()] inside its [try]. *)
Definition read_seed : M HTTPException string :=
  try_except (text <- read_text ;; ret (strip text))
    (fun _ => mkHTTPException 500 "Error reading seed").

(** [generate_2fa], lines 62-85. *)
Definition generate_2fa : M HTTPException Response :=
  present <- exists_ ;;
  if negb present then raise (mkHTTPException 500 "Seed not decrypted yet")
  else
    hex_seed <- read_seed ;;
    cv <-
      try_except
        (code <- call (EvGenerate hex_seed) (generate_totp_code hex_seed) ;;
         valid_for <- call (EvRemaining 30) (seconds_remaining_in_period 30) ;;
         ret (code, valid_for))
        (fun _ => mkHTTPException 500 "Error generating TOTP") ;;
    ret (CodeResponse (fst cv) (snd cv)).

(** [verify_2fa], lines 89-116. *)
Definition verify_2fa (body : Verify2FARequest) : M HTTPException Response :=
  match code body with
  | None => raise (mkHTTPException 400 "Missing code")
  | Some c =>
      if String.eqb (strip c) "" then
        raise (mkHTTPException 400 "Missing code")
      else
        present <- exists_ ;;
        if negb present then
          raise (mkHTTPException 500 "Seed not decrypted yet")
        else
          hex_seed <- read_seed ;;
          valid <-
            try_except (call (EvVerify hex_seed c 1)
                             (verify_totp_code hex_seed c 1))
              (fun _ => mkHTTPException 500 "Error verifying TOTP") ;;
          ret (ValidResponse valid)
  end.

End Handlers.

End Main.

(** ** Sample collaborators

    Implementations of the imported functions on which the handlers can be
    run: the TotpEngine at a fixed clock, a key that loads or not, and a
    decryption that fails on some ciphertexts. *)

Module Samples.
Import TotpEngine Main.

Definition lift {A : Type} (r : result TotpEngine.error A)
  : result PyException A :=
  match r with
  | Ok a => Ok a
  | Err TotpComputeError => Err (mkException "non-hexadecimal number found")
  | Err ValidationError => Err (mkException "invalid code")
  end.

(** The ciphertext ["c2VlZA=="] decrypts to the RFC secret, the empty
    ciphertext is of the wrong length and every other one fails the
    padding check. *)
Definition sample_decrypt (ciphertext : string)
  : result PyException string :=
  if String.eqb ciphertext "c2VlZA==" then Ok rfc_secret
  else if String.eqb ciphertext "" then
    Err (mkException "Ciphertext length must be equal to key size.")
  else Err (mkException "Decryption failed.").

(** The key loads; the clock reads [now]. *)
Definition engine_at (now : Z) : Collaborators := {|
  PrivateKey := unit;
  load_private_key := fun _ => Ok tt;
  decrypt_seed := fun ciphertext _ => sample_decrypt ciphertext;
  generate_totp_code := fun hex_seed =>
    lift (generate hex_seed now default_digits default_step);
  seconds_remaining_in_period := fun period =>
    Ok (secondsRemainingInPeriod now period);
  verify_totp_code := fun hex_seed code valid_window =>
    lift (verify hex_seed code now (Z.to_nat valid_window) default_step)
|}.

(** The key file is not there. *)
Definition missing_key (now : Z) : Collaborators := {|
  PrivateKey := unit;
  load_private_key := fun path =>
    Err (mkException ("No such file or directory: " ++ path));
  decrypt_seed := fun ciphertext _ => sample_decrypt ciphertext;
  generate_totp_code := fun hex_seed =>
    lift (generate hex_seed now default_digits default_step);
  seconds_remaining_in_period := fun period =>
    Ok (secondsRemainingInPeriod now period);
  verify_totp_code := fun hex_seed code valid_window =>
    lift (verify hex_seed code now (Z.to_nat valid_window) default_step)
|}.

(** No seed has been stored yet. *)
Definition fresh : World := mkWorld None true true [].

(** The RFC secret is stored. *)
Definition provisioned : World :=
  mkWorld (Some (rfc_secret ++ newline)%string) true true [].

End Samples.

(** ** The application: its routes and the requests it serves *)

Module Service.
Import Main.

(** [health], lines 26-29. *)
Definition health : M HTTPException Response := ret StatusOk.

(** The four routes: [GET /health], [POST /decrypt-seed],
    [GET /generate-2fa], [POST /verify-2fa]. *)
Inductive Request : Type :=
| GetHealth
| PostDecryptSeed (body : DecryptSeedRequest)
| GetGenerate2fa
| PostVerify2fa (body : Verify2FARequest).

Definition handle {C : Collaborators} (request : Request)
  : M HTTPException Response :=
  match request with
  | GetHealth => health
  | PostDecryptSeed body => decrypt_seed_endpoint body
  | GetGenerate2fa => generate_2fa
  | PostVerify2fa body => verify_2fa body
  end.

(** Requests served one after the other, each on the world the previous
    one left, whether it failed or not. Every request comes with the
    imported functions as they behave when it is served (the key file and
    the clock may have changed in between). *)
Fixpoint serve (requests : list (Collaborators * Request)) (w : World)
  : list (result HTTPException Response) * World :=
  match requests with
  | [] => ([], w)
  | (C, request) :: rest =>
      let (answer, w') := handle (C := C) request w in
      let (answers, w'') := serve rest w' in
      (answer :: answers, w'')
  end.

(** A string without any whitespace character. *)
Fixpoint no_space (s : string) : bool :=
  match s with
  | EmptyString => true
  | String c r => negb (isspace c) && no_space r
  end.

(** Sample collaborators: the key loads, every ciphertext decrypts to
    [seed], the engine fails. *)
Definition decrypting_to (seed : string) : Collaborators := {|
  PrivateKey := unit;
  load_private_key := fun _ => Ok tt;
  decrypt_seed := fun _ _ => Ok seed;
  generate_totp_code := fun _ => Err (mkException "no engine");
  seconds_remaining_in_period := fun _ => Err (mkException "no engine");
  verify_totp_code := fun _ _ _ => Err (mkException "no engine")
|}.

(** Sample worlds: a seed file that cannot be written, one that cannot be
    read, and one that holds a newline only. *)
Definition read_only : World := mkWorld None true false [].

Definition unreadable : World :=
  mkWorld (Some (TotpEngine.rfc_secret ++ newline)%string) false true [].

Definition blank : World := mkWorld (Some newline) true true [].

End Service.

(** ** Properties of the TotpEngine *)

Module TotpProps.
Import Bytes Sha1 TotpEngine.

(** The published vectors: SHA-1 of ["abc"] (FIPS 180-4), the HMAC of
    counter 0 and the ten codes of RFC 4226, appendix D. *)
Example sha1_abc :
  sha1 (ascii_bytes "abc")
  = [169; 153; 62; 54; 71; 6; 129; 106; 186; 62;
     37; 113; 120; 80; 194; 108; 156; 208; 216; 157].
Proof. vm_compute. reflexivity. Qed.

Example hmac_counter_0 :
  hmac_sha1 (ascii_bytes "12345678901234567890") (be_bytes 8 0)
  = [204; 147; 207; 24; 80; 141; 148; 147; 76; 100;
     182; 93; 139; 167; 102; 127; 183; 205; 228; 176].
Proof. vm_compute. reflexivity. Qed.

Example hotp_rfc_table :
  map (fun counter => hotp (ascii_bytes "12345678901234567890") counter 6)
      [0; 1; 2; 3; 4; 5; 6; 7; 8; 9]
  = ["755224"; "287082"; "359152"; "969429"; "338314";
     "254676"; "287922"; "162583"; "399871"; "520489"]%string.
Proof. vm_compute. reflexivity. Qed.

Example rfc_secret_bytes :
  decode_secret rfc_secret = Ok (ascii_bytes "12345678901234567890").
Proof. vm_compute. reflexivity. Qed.

Lemma length_app (a b : string) :
  String.length (a ++ b) = (String.length a + String.length b)%nat.
Proof.
  induction a as [|c a IH]; simpl; [reflexivity | now rewrite IH].
Qed.

Lemma all_digits_app (a b : string) :
  all_digits (a ++ b) = all_digits a && all_digits b.
Proof.
  induction a as [|c a IH]; simpl; [reflexivity|].
  now rewrite IH, andb_assoc.
Qed.

Lemma digit_char_is_digit (d : Z) :
  0 <= d < 10 -> is_digit (digit_char d) = true.
Proof.
  intros Hd.
  assert (Hcases : d = 0 \/ d = 1 \/ d = 2 \/ d = 3 \/ d = 4 \/ d = 5
                   \/ d = 6 \/ d = 7 \/ d = 8 \/ d = 9) by lia.
  repeat (destruct Hcases as [-> | Hcases]; [reflexivity|]).
  now subst d.
Qed.

Lemma zero_padded_length (digits : nat) (v : Z) :
  String.length (zero_padded digits v) = digits.
Proof.
  revert v; induction digits as [|k IH]; intros v; simpl; [reflexivity|].
  rewrite length_app, IH; simpl; lia.
Qed.

Lemma zero_padded_digits (digits : nat) (v : Z) :
  all_digits (zero_padded digits v) = true.
Proof.
  revert v; induction digits as [|k IH]; intros v; simpl; [reflexivity|].
  rewrite all_digits_app, IH; simpl.
  rewrite digit_char_is_digit; [reflexivity|].
  apply Z.mod_pos_bound; lia.
Qed.

(** Every code the engine produces is a structurally valid candidate. *)
Lemma hotp_well_formed (key : list Z) (counter : Z) (digits : nat) :
  well_formed digits (hotp key counter digits) = true.
Proof.
  unfold well_formed, hotp.
  rewrite zero_padded_length, zero_padded_digits, Nat.eqb_refl.
  reflexivity.
Qed.

Lemma char_code_inj (x y : ascii) : char_code x = char_code y -> x = y.
Proof.
  unfold char_code; intros H.
  apply Nat2Z.inj in H.
  rewrite <- (ascii_nat_embedding x), <- (ascii_nat_embedding y).
  now rewrite H.
Qed.

Lemma ct_diff_zero (a b : string) (acc : Z) :
  ct_diff a b acc = 0 <-> acc = 0 /\ a = b.
Proof.
  revert b acc; induction a as [|x a IH]; intros [|y b] acc; simpl.
  - tauto.
  - rewrite Z.lor_eq_0_iff; split; [lia | intros [_ H]; discriminate].
  - rewrite Z.lor_eq_0_iff; split; [lia | intros [_ H]; discriminate].
  - rewrite IH, Z.lor_eq_0_iff, Z.lxor_eq_0_iff; split.
    + intros [[Hacc Hxy] Hab]; apply char_code_inj in Hxy.
      now subst.
    + intros [Hacc Heq]; injection Heq as -> ->; auto.
Qed.

(** The constant-time comparison decides equality of strings. *)
Lemma ct_eq_eqb (a b : string) : ct_eq a b = String.eqb a b.
Proof.
  unfold ct_eq.
  destruct (String.eqb a b) eqn:E.
  - apply String.eqb_eq in E; apply Z.eqb_eq, ct_diff_zero; auto.
  - apply Z.eqb_neq; intros H; apply ct_diff_zero in H as [_ H].
    apply String.eqb_eq in H; congruence.
Qed.

Lemma decode_valid (secretHex : string) :
  valid_secret secretHex <-> exists key, decode_secret secretHex = Ok key.
Proof.
  unfold valid_secret, decode_secret; split.
  - intros (key & -> & Hne); destruct key; [congruence | eauto].
  - intros (key & H); destruct (hex_decode secretHex) as [[|b bs]|];
      try discriminate.
    exists (b :: bs); split; [reflexivity | discriminate].
Qed.

Lemma generate_ok (secretHex : string) (key : list Z)
      (atTime : Z) (digits : nat) (stepSeconds : Z) :
  decode_secret secretHex = Ok key ->
  generate secretHex atTime digits stepSeconds
  = Ok (hotp key (atTime / stepSeconds) digits).
Proof.
  unfold generate; intros ->; reflexivity.
Qed.

Lemma collect_ok {E A B : Type} (f : A -> B) (l : list A) :
  collect (map (fun x => @Ok E B (f x)) l) = Ok (map f l).
Proof.
  induction l as [|x l IH]; simpl; [reflexivity|].
  now rewrite IH.
Qed.

Lemma fold_orb_existsb {A : Type} (p : A -> bool) (l : list A) (acc : bool) :
  fold_left (fun b x => orb b (p x)) l acc = orb acc (existsb p l).
Proof.
  revert acc; induction l as [|x l IH]; intros acc; simpl.
  - now rewrite orb_false_r.
  - now rewrite IH, orb_assoc.
Qed.

Lemma existsb_map_comp {A B : Type} (p : B -> bool) (f : A -> B) (l : list A) :
  existsb p (map f l) = existsb (fun x => p (f x)) l.
Proof.
  induction l as [|x l IH]; simpl; [reflexivity | now rewrite IH].
Qed.

(** With a valid secret and a structurally valid candidate, [verify]
    accepts exactly when the candidate is the code of one of the steps
    [atTime + k*stepSeconds], [k] in [[-window, window]]. *)
Lemma verify_characterisation (secretHex candidate : string) (key : list Z)
      (atTime : Z) (window : nat) (stepSeconds : Z) :
  decode_secret secretHex = Ok key ->
  well_formed default_digits candidate = true ->
  verify secretHex candidate atTime window stepSeconds
  = Ok (existsb
          (fun k => String.eqb candidate
                      (hotp key ((atTime + k * stepSeconds) / stepSeconds)
                            default_digits))
          (offsets window)).
Proof.
  intros Hkey Hwf; unfold verify; rewrite Hwf.
  rewrite (map_ext _
             (fun k => Ok (hotp key ((atTime + k * stepSeconds) / stepSeconds)
                                default_digits)))
    by (intros k; apply generate_ok, Hkey).
  rewrite collect_ok; unfold bind.
  rewrite fold_orb_existsb, existsb_map_comp; simpl orb.
  f_equal; induction (offsets window) as [|k l IH]; simpl;
    [reflexivity | now rewrite IH, ct_eq_eqb].
Qed.

(** C1. The RFC test vector: with the secret
    [3132333435363738393031323334353637383930] the code generated at Unix
    time 59 with step 30 and 6 digits is [287082]. *)
Theorem generate_rfc_vector :
  generate rfc_secret 59 6 30 = Ok "287082"%string.
Proof. vm_compute. reflexivity. Qed.

Ltac rfc_secret_is_valid :=
  eexists; split; [vm_compute; reflexivity | discriminate].

(** C3. For a valid secret and any time [t], the code generated at [t] is
    accepted at [t] with window 0. *)
Theorem verify_fresh_code (secretHex : string) (t : Z) :
  valid_secret secretHex ->
  exists c,
    generate secretHex t 6 30 = Ok c
    /\ verify secretHex c t 0 30 = Ok true.
Proof.
  intros Hvalid; apply decode_valid in Hvalid as [key Hkey].
  exists (hotp key (t / 30) 6); split; [now apply generate_ok|].
  rewrite (verify_characterisation _ _ key) by
    (auto using hotp_well_formed).
  change (offsets 0) with [0]; cbn [existsb].
  rewrite Z.mul_0_l, Z.add_0_r, String.eqb_refl.
  reflexivity.
Qed.

Lemma verify_fresh_code_witness :
  valid_secret rfc_secret
  /\ exists c,
      generate rfc_secret 59 6 30 = Ok c
      /\ verify rfc_secret c 59 0 30 = Ok true.
Proof.
  split; [rfc_secret_is_valid|].
  apply (verify_fresh_code rfc_secret 59); rfc_secret_is_valid.
Defined.

(** C2, as the engine has it. For a valid secret and any time [t], the
    code of the previous step is accepted at [t] with window 1; with
    window 0 it is accepted exactly when it is also the code of the
    current step, and rejected otherwise. *)
Theorem verify_previous_step (secretHex : string) (t : Z) :
  valid_secret secretHex ->
  exists c c',
    generate secretHex (t - 30) 6 30 = Ok c
    /\ generate secretHex t 6 30 = Ok c'
    /\ verify secretHex c t 1 30 = Ok true
    /\ verify secretHex c t 0 30 = Ok (String.eqb c c').
Proof.
  intros Hvalid; apply decode_valid in Hvalid as [key Hkey].
  exists (hotp key ((t - 30) / 30) 6), (hotp key (t / 30) 6).
  repeat split; try (now apply generate_ok).
  - rewrite (verify_characterisation _ _ key) by
      (auto using hotp_well_formed).
    change (offsets 1) with [-1; 0; 1]; cbn [existsb].
    replace (t + -1 * 30) with (t - 30) by lia.
    now rewrite String.eqb_refl.
  - rewrite (verify_characterisation _ _ key) by
      (auto using hotp_well_formed).
    change (offsets 0) with [0]; cbn [existsb].
    now rewrite Z.mul_0_l, Z.add_0_r, orb_false_r.
Qed.

Lemma verify_previous_step_witness :
  valid_secret rfc_secret
  /\ exists c c',
      generate rfc_secret (59 - 30) 6 30 = Ok c
      /\ generate rfc_secret 59 6 30 = Ok c'
      /\ verify rfc_secret c 59 1 30 = Ok true
      /\ verify rfc_secret c 59 0 30 = Ok (String.eqb c c').
Proof.
  split; [rfc_secret_is_valid|].
  apply (verify_previous_step rfc_secret 59); rfc_secret_is_valid.
Defined.

(** C2, as stated, fails: with the RFC secret the steps 910737 and 910738
    have the same code [911617], so at [t = 27322140] the code of the
    previous step is accepted with window 0. *)
Lemma previous_step_accepted_with_window0 :
  ~ (forall (secretHex : string) (t : Z) (c : string),
        valid_secret secretHex ->
        generate secretHex (t - 30) 6 30 = Ok c ->
        verify secretHex c t 1 30 = Ok true
        /\ verify secretHex c t 0 30 = Ok false).
Proof.
  intros H.
  assert (Hvalid : valid_secret rfc_secret) by rfc_secret_is_valid.
  assert (Hgen : generate rfc_secret (27322140 - 30) 6 30
                 = Ok "911617"%string) by (vm_compute; reflexivity).
  destruct (H rfc_secret 27322140 "911617"%string Hvalid Hgen) as [_ H0].
  vm_compute in H0; discriminate.
Qed.

End TotpProps.

(** ** Properties of the handlers *)

Module MainProps.
Import TotpEngine Main Samples.

(** *** Stripping *)

Lemma rstrip_all_space (s : string) :
  all_space s = true -> rstrip s = EmptyString.
Proof.
  induction s as [|c r IH]; simpl; [reflexivity|].
  intros H; apply andb_prop in H as [Hc Hr].
  now rewrite (IH Hr), Hc.
Qed.

Lemma strip_all_space (s : string) :
  all_space s = true -> strip s = EmptyString.
Proof.
  intros H; unfold strip; now rewrite rstrip_all_space.
Qed.

Lemma lower_hex_not_space (c : ascii) :
  is_lower_hex c = true -> isspace c = false.
Proof.
  destruct c as [[] [] [] [] [] [] [] []]; vm_compute; congruence.
Qed.

Lemma lower_hex_not_cr (c : ascii) :
  is_lower_hex c = true -> Ascii.eqb c cr = false.
Proof.
  destruct c as [[] [] [] [] [] [] [] []]; vm_compute; congruence.
Qed.

Lemma rstrip_lower_hex (h : string) :
  lower_hex h = true -> rstrip (h ++ newline) = h.
Proof.
  induction h as [|c r IH]; [reflexivity|].
  simpl lower_hex; intros H; apply andb_prop in H as [Hc Hr].
  change (rstrip (String c r ++ newline))
    with (match rstrip (r ++ newline) with
          | EmptyString =>
              if isspace c then EmptyString else String c EmptyString
          | r' => String c r'
          end).
  rewrite (IH Hr), (lower_hex_not_space c Hc).
  now destruct r.
Qed.

Lemma lstrip_lower_hex (h : string) :
  lower_hex h = true -> lstrip h = h.
Proof.
  destruct h as [|c r]; [reflexivity|].
  simpl; intros H; apply andb_prop in H as [Hc _].
  now rewrite (lower_hex_not_space c Hc).
Qed.

Lemma strip_lower_hex (h : string) :
  lower_hex h = true -> strip (h ++ newline) = h.
Proof.
  intros H; unfold strip.
  now rewrite rstrip_lower_hex, lstrip_lower_hex.
Qed.

Lemma universal_newlines_lower_hex (h : string) :
  lower_hex h = true ->
  universal_newlines (h ++ newline) = (h ++ newline)%string.
Proof.
  induction h as [|c r IH]; [reflexivity|].
  simpl lower_hex; intros H; apply andb_prop in H as [Hc Hr].
  change (universal_newlines (String c r ++ newline))
    with (if Ascii.eqb c cr then
            match (r ++ newline)%string with
            | String d r' =>
                if Ascii.eqb d lf then String lf (universal_newlines r')
                else String lf (universal_newlines (r ++ newline))
            | EmptyString => String lf EmptyString
            end
          else String c (universal_newlines (r ++ newline))).
  now rewrite (lower_hex_not_cr c Hc), (IH Hr).
Qed.

Lemma lstrip_empty (s : string) :
  lstrip s = EmptyString -> all_space s = true.
Proof.
  induction s as [|c r IH]; simpl; [reflexivity|].
  destruct (isspace c); [exact IH | discriminate].
Qed.

Lemma all_space_rstrip (s : string) :
  all_space (rstrip s) = true -> all_space s = true.
Proof.
  induction s as [|c r IH]; simpl; [reflexivity|].
  destruct (rstrip r) as [|d r'] eqn:E.
  - destruct (isspace c) eqn:Hc; simpl; [|now rewrite Hc].
    intros _; now apply IH.
  - change (all_space (String c (String d r')))
      with (isspace c && all_space (String d r')).
    intros H; apply andb_prop in H as [-> H]; now apply IH.
Qed.

(** [strip] leaves nothing exactly of the strings that are empty or made
    of whitespace only. *)
Lemma strip_empty_iff (s : string) :
  strip s = EmptyString <-> all_space s = true.
Proof.
  split; [|apply strip_all_space].
  unfold strip; intros H; now apply all_space_rstrip, lstrip_empty.
Qed.

Lemma strip_eqb_empty (s : string) :
  String.eqb (strip s) "" = all_space s.
Proof.
  destruct (all_space s) eqn:E.
  - apply String.eqb_eq, strip_empty_iff, E.
  - destruct (String.eqb (strip s) "") eqn:E'; [|reflexivity].
    apply String.eqb_eq, strip_empty_iff in E'; congruence.
Qed.

(** *** The handlers *)

Ltac unfold_handlers :=
  cbv beta delta [decrypt_seed_endpoint generate_2fa verify_2fa read_seed
                  mbind try_except call exists_ read_text write_text
                  ret raise].

Section HandlerProps.
Context {C : Collaborators}.

(** C4. Whatever exception the decryption raises, the caller of
    decrypt-seed receives the one error [500, "Decryption failed"]. *)
Theorem decryption_failure_is_opaque
        (body : DecryptSeedRequest) (w : World)
        (key : PrivateKey) (e : PyException) :
  load_private_key key_file = Ok key ->
  decrypt_seed (encrypted_seed body) key = Err e ->
  fst (decrypt_seed_endpoint body w)
  = Err (mkHTTPException 500 "Decryption failed").
Proof.
  intros Hload Hdec; unfold_handlers.
  rewrite Hload; cbn beta iota.
  rewrite Hdec; reflexivity.
Qed.

(** C5, where the code departs from it. When the key fails to load, the
    text of the exception is interpolated into the message the caller
    receives. *)
Theorem key_load_failure_shows_exception
        (body : DecryptSeedRequest) (w : World) (e : PyException) :
  load_private_key key_file = Err e ->
  fst (decrypt_seed_endpoint body w)
  = Err (mkHTTPException 500
           ("Private key load failed: " ++ str_e e)%string).
Proof.
  intros Hload; unfold_handlers.
  rewrite Hload; reflexivity.
Qed.

Ltac cases :=
  repeat (cbn;
          match goal with
          | |- context [match ?x with _ => _ end] => is_var x; destruct x
          | |- context [match seed_file ?w with _ => _ end] =>
              destruct (seed_file w)
          | |- context [match seed_readable ?w with _ => _ end] =>
              destruct (seed_readable w)
          | |- context [match code ?b with _ => _ end] => destruct (code b)
          | |- context [match String.eqb ?a ?b with _ => _ end] =>
              destruct (String.eqb a b)
          | |- context [match generate_totp_code ?x with _ => _ end] =>
              destruct (generate_totp_code x)
          | |- context [match seconds_remaining_in_period ?x with _ => _ end] =>
              destruct (seconds_remaining_in_period x)
          | |- context [match verify_totp_code ?x ?y ?z with _ => _ end] =>
              destruct (verify_totp_code x y z)
          end).

(** Every other failure of decrypt-seed carries a fixed message. *)
Lemma decrypt_seed_endpoint_details
      (body : DecryptSeedRequest) (w : World) (h : HTTPException) :
  fst (decrypt_seed_endpoint body w) = Err h ->
  (exists e, load_private_key key_file = Err e
             /\ h = mkHTTPException 500
                      ("Private key load failed: " ++ str_e e)%string)
  \/ h = mkHTTPException 500 "Decryption failed"
  \/ h = mkHTTPException 500 "Failed to persist seed".
Proof.
  unfold_handlers; unfold log; cbn.
  destruct (load_private_key key_file) as [key|e] eqn:Hload; cbn.
  - destruct (decrypt_seed (encrypted_seed body) key); cbn.
    + destruct (seed_writable w); cbn; [discriminate|].
      intros [= <-]; auto.
    + intros [= <-]; auto.
  - intros [= <-]; left; eauto.
Qed.



(** The handlers read the world through the seed file only. *)
Lemma generate_2fa_same_store (w1 w2 : World) :
  same_store w1 w2 -> fst (generate_2fa w1) = fst (generate_2fa w2).
Proof.
  destruct w1, w2; unfold same_store; cbn.
  intros (-> & -> & ->).
  unfold_handlers; unfold log; cbn.
  cases; reflexivity.
Qed.

Lemma verify_2fa_same_store (body : Verify2FARequest) (w1 w2 : World) :
  same_store w1 w2 ->
  fst (verify_2fa body w1) = fst (verify_2fa body w2).
Proof.
  destruct w1, w2; unfold same_store; cbn.
  intros (-> & -> & ->).
  unfold_handlers; unfold log; cbn.
  cases; reflexivity.
Qed.

Lemma same_store_log (ev : Event) (w : World) : same_store (log ev w) w.
Proof. now unfold same_store. Qed.

Lemma same_store_trans (w1 w2 w3 : World) :
  same_store w1 w2 -> same_store w2 w3 -> same_store w1 w3.
Proof.
  unfold same_store; intros (-> & -> & ->) (-> & -> & ->); auto.
Qed.

(** C6. A decrypt-seed call that fails at the key or at the decryption
    leaves the seed file as it was, and the handlers that read it
    afterwards answer as they would have before the call. *)
Theorem failed_decrypt_keeps_seed (body : DecryptSeedRequest) (w : World) :
  (exists e, load_private_key key_file = Err e)
  \/ (exists key e, load_private_key key_file = Ok key
                    /\ decrypt_seed (encrypted_seed body) key = Err e) ->
  (exists h, fst (decrypt_seed_endpoint body w) = Err h)
  /\ seed_file (snd (decrypt_seed_endpoint body w)) = seed_file w
  /\ fst (generate_2fa (snd (decrypt_seed_endpoint body w)))
     = fst (generate_2fa w)
  /\ forall b, fst (verify_2fa b (snd (decrypt_seed_endpoint body w)))
               = fst (verify_2fa b w).
Proof.
  intros Hfail.
  assert (H : (exists h, fst (decrypt_seed_endpoint body w) = Err h)
              /\ same_store (snd (decrypt_seed_endpoint body w)) w).
  { unfold_handlers.
    destruct Hfail as [[e ->] | (key & e & -> & Hdec)]; cbn beta iota.
    - split; [eexists; reflexivity | apply same_store_log].
    - rewrite Hdec; split; [eexists; reflexivity|].
      eapply same_store_trans; apply same_store_log. }
  destruct H as [Herr Hsame]; split; [exact Herr|].
  split; [apply Hsame|].
  split; [now apply generate_2fa_same_store|].
  intros b; now apply verify_2fa_same_store.
Qed.

(** C7, as the code has it. While the seed file does not exist,
    generate-2fa, and verify-2fa on a candidate that has a character
    other than whitespace, fail with [500, "Seed not decrypted yet"];
    nothing but the existence of the file has been looked at. *)
Theorem no_seed_no_answer
        (w : World) (body : Verify2FARequest) (c : string) :
  seed_file w = None ->
  code body = Some c ->
  all_space c = false ->
  generate_2fa w = (Err seed_missing, log EvExists w)
  /\ verify_2fa body w = (Err seed_missing, log EvExists w).
Proof.
  intros Hnone Hcode Hc; unfold_handlers.
  rewrite Hcode, strip_eqb_empty, Hc, Hnone.
  split; reflexivity.
Qed.

(** C8. After a decrypt-seed that succeeds with the lowercase
    hexadecimal string [h], the seed file holds [h] and a newline, the
    read of the handlers gives back [h], and generate-2fa and verify-2fa
    hand exactly [h] to the engine. *)
Theorem stored_seed_round_trip
        (body : DecryptSeedRequest) (w : World)
        (key : PrivateKey) (h : string) :
  load_private_key key_file = Ok key ->
  decrypt_seed (encrypted_seed body) key = Ok h ->
  lower_hex h = true ->
  seed_writable w = true ->
  seed_readable w = true ->
  fst (decrypt_seed_endpoint body w) = Ok StatusOk
  /\ seed_file (snd (decrypt_seed_endpoint body w))
     = Some (h ++ newline)%string
  /\ fst (read_seed (snd (decrypt_seed_endpoint body w))) = Ok h
  /\ fst (generate_2fa (snd (decrypt_seed_endpoint body w)))
     = match generate_totp_code h, seconds_remaining_in_period 30 with
       | Ok c, Ok valid_for => Ok (CodeResponse c valid_for)
       | _, _ => Err (mkHTTPException 500 "Error generating TOTP")
       end
  /\ forall c, all_space c = false ->
       fst (verify_2fa {| code := Some c |}
                       (snd (decrypt_seed_endpoint body w)))
       = match verify_totp_code h c 1 with
         | Ok valid => Ok (ValidResponse valid)
         | Err _ => Err (mkHTTPException 500 "Error verifying TOTP")
         end.
Proof.
  intros Hload Hdec Hhex Hwr Hrd.
  assert (Hrun : decrypt_seed_endpoint body w
                 = (Ok StatusOk,
                    mkWorld (Some (h ++ newline)%string) true true
                            (trace w ++ [EvLoadKey key_file;
                                         EvDecrypt (encrypted_seed body);
                                         EvWrite (h ++ newline)%string]))).
  { unfold_handlers; rewrite Hload; cbn beta iota.
    rewrite Hdec; cbn beta iota.
    unfold log; cbn [seed_writable seed_readable seed_file trace].
    rewrite Hwr, Hrd, <- !app_assoc; reflexivity. }
  rewrite Hrun; cbn [fst snd seed_file].
  repeat split.
  - unfold_handlers; cbn -[strip universal_newlines append].
    now rewrite universal_newlines_lower_hex, strip_lower_hex.
  - unfold_handlers; cbn -[strip universal_newlines append].
    rewrite universal_newlines_lower_hex, strip_lower_hex by assumption.
    destruct (generate_totp_code h); [|reflexivity].
    destruct (seconds_remaining_in_period 30); reflexivity.
  - intros c Hc; unfold_handlers; cbn [code].
    rewrite strip_eqb_empty, Hc; cbn -[strip universal_newlines append].
    rewrite universal_newlines_lower_hex, strip_lower_hex by assumption.
    destruct (verify_totp_code h c 1); reflexivity.
Qed.

(** C9. A verify-2fa request whose code is empty or made of whitespace
    only is refused with [400, "Missing code"]; the world is as before,
    so neither the seed file nor the engine has been called. *)
Theorem blank_code_is_refused
        (body : Verify2FARequest) (w : World) (c : string) :
  code body = Some c ->
  all_space c = true ->
  verify_2fa body w = (Err code_is_missing, w).
Proof.
  intros Hcode Hc; unfold_handlers.
  now rewrite Hcode, strip_eqb_empty, Hc.
Qed.

(** C10. A verify-2fa request without a code is refused like one with
    the empty code, with [400, "Missing code"], in every world and so
    also when no seed file exists; the existence of the file has not
    been looked at. *)
Theorem absent_code_is_refused (body : Verify2FARequest) (w : World) :
  code body = None ->
  verify_2fa body w = verify_2fa {| code := Some ""%string |} w
  /\ verify_2fa body w = (Err code_is_missing, w).
Proof.
  intros Hcode; unfold_handlers.
  rewrite Hcode; split; reflexivity.
Qed.

End HandlerProps.

(** *** The theorems on the sample collaborators *)

Lemma decryption_failure_is_opaque_witness :
  load_private_key (Collaborators := engine_at 59) key_file = Ok tt
  /\ decrypt_seed (Collaborators := engine_at 59) "" tt
     = Err (mkException "Ciphertext length must be equal to key size.")
  /\ fst (decrypt_seed_endpoint (C := engine_at 59)
                                {| encrypted_seed := "" |} provisioned)
     = Err (mkHTTPException 500 "Decryption failed").
Proof.
  split; [reflexivity|]; split; [reflexivity|].
  apply (decryption_failure_is_opaque
           (C := engine_at 59) {| encrypted_seed := "" |} provisioned tt
           (mkException "Ciphertext length must be equal to key size."));
    reflexivity.
Defined.

Lemma key_load_failure_shows_exception_witness :
  load_private_key (Collaborators := missing_key 59) key_file
  = Err (mkException "No such file or directory: student_private.pem")
  /\ fst (decrypt_seed_endpoint (C := missing_key 59)
                                {| encrypted_seed := "c2VlZA==" |} fresh)
     = Err (mkHTTPException 500
              "Private key load failed: No such file or directory: student_private.pem").
Proof.
  split; [reflexivity|].
  apply (key_load_failure_shows_exception
           (C := missing_key 59) {| encrypted_seed := "c2VlZA==" |} fresh
           (mkException "No such file or directory: student_private.pem"));
    reflexivity.
Defined.

Lemma failed_decrypt_keeps_seed_witness :
  let w' := snd (decrypt_seed_endpoint (C := engine_at 59)
                                       {| encrypted_seed := "AAAA" |}
                                       provisioned) in
  (exists h, fst (decrypt_seed_endpoint (C := engine_at 59)
                                        {| encrypted_seed := "AAAA" |}
                                        provisioned) = Err h)
  /\ seed_file w' = seed_file provisioned
  /\ fst (generate_2fa (C := engine_at 59) w')
     = fst (generate_2fa (C := engine_at 59) provisioned)
  /\ forall b, fst (verify_2fa (C := engine_at 59) b w')
               = fst (verify_2fa (C := engine_at 59) b provisioned).
Proof.
  apply (failed_decrypt_keeps_seed
           (C := engine_at 59) {| encrypted_seed := "AAAA" |} provisioned).
  right; exists tt, (mkException "Decryption failed.").
  split; reflexivity.
Defined.

Lemma no_seed_no_answer_witness :
  seed_file fresh = None
  /\ all_space "287082" = false
  /\ generate_2fa (C := engine_at 59) fresh
     = (Err seed_missing, log EvExists fresh)
  /\ verify_2fa (C := engine_at 59) {| code := Some "287082"%string |} fresh
     = (Err seed_missing, log EvExists fresh).
Proof.
  split; [reflexivity|]; split; [reflexivity|].
  apply (no_seed_no_answer (C := engine_at 59) fresh
           {| code := Some "287082"%string |} "287082"); reflexivity.
Defined.

(** C7, as stated, fails: a candidate of one space is not empty, and
    without a seed file verify-2fa answers it with [400, "Missing code"]. *)
Lemma whitespace_candidate_without_seed :
  ~ (forall (C : Collaborators) (w : World)
            (body : Verify2FARequest) (c : string),
        seed_file w = None ->
        code body = Some c ->
        c <> ""%string ->
        fst (generate_2fa w) = Err seed_missing
        /\ fst (verify_2fa body w) = Err seed_missing).
Proof.
  intros H.
  assert (Hcandidate : " "%string <> ""%string) by discriminate.
  destruct (H (engine_at 59) fresh {| code := Some " "%string |} " "%string
              eq_refl eq_refl Hcandidate) as [_ Hverify].
  vm_compute in Hverify; discriminate.
Qed.

Lemma stored_seed_round_trip_witness :
  lower_hex rfc_secret = true
  /\ fst (read_seed
            (snd (decrypt_seed_endpoint (C := engine_at 59)
                    {| encrypted_seed := "c2VlZA==" |} fresh)))
     = Ok rfc_secret.
Proof.
  split; [reflexivity|].
  apply (stored_seed_round_trip
           (C := engine_at 59) {| encrypted_seed := "c2VlZA==" |} fresh tt
           rfc_secret); reflexivity.
Defined.

Lemma blank_code_is_refused_witness :
  all_space " " = true
  /\ verify_2fa (C := engine_at 59) {| code := Some " "%string |} provisioned
     = (Err code_is_missing, provisioned).
Proof.
  split; [reflexivity|].
  apply (blank_code_is_refused (C := engine_at 59)
           {| code := Some " "%string |} provisioned " "); reflexivity.
Defined.

(** The three handlers in sequence at clock 59: the seed is stored, the
    code of the RFC vector comes back with one second left, and it is
    accepted. *)
Example provision_generate_verify :
  fst ((_ <- decrypt_seed_endpoint (C := engine_at 59)
              {| encrypted_seed := "c2VlZA==" |} ;;
        generated <- generate_2fa (C := engine_at 59) ;;
        verified <- verify_2fa (C := engine_at 59)
                      {| code := Some "287082"%string |} ;;
        ret (generated, verified)) fresh)
  = Ok (CodeResponse "287082" 1, ValidResponse true).
Proof. vm_compute. reflexivity. Qed.

Lemma absent_code_is_refused_witness :
  seed_file fresh = None
  /\ verify_2fa (C := engine_at 59) {| code := None |} fresh
     = (Err code_is_missing, fresh).
Proof.
  split; [reflexivity|].
  apply (absent_code_is_refused (C := engine_at 59) {| code := None |} fresh);
    reflexivity.
Defined.

End MainProps.

(** ** Further properties of the handlers and of the application *)

Module ServiceProps.
Import TotpEngine Main Samples Service.

Ltac run_handlers :=
  cbv beta delta [handle health decrypt_seed_endpoint generate_2fa verify_2fa
                  read_seed mbind try_except call exists_ read_text
                  write_text ret raise log].

(** Case analysis on what the world and the imported functions answer,
    outermost call first. *)
Ltac split_calls :=
  repeat (cbn -[strip universal_newlines append];
          match goal with
          | |- context [match code ?b with _ => _ end] =>
              destruct (code b) eqn:?
          | |- context [match String.eqb (strip ?c) ?e with _ => _ end] =>
              rewrite (MainProps.strip_eqb_empty c);
              destruct (all_space c) eqn:?
          | |- context [match seed_file ?w with _ => _ end] =>
              destruct (seed_file w) eqn:?
          | |- context [match seed_readable ?w with _ => _ end] =>
              destruct (seed_readable w) eqn:?
          | |- context [match seed_writable ?w with _ => _ end] =>
              destruct (seed_writable w) eqn:?
          | |- context [match load_private_key ?x with _ => _ end] =>
              destruct (load_private_key x) eqn:?
          | |- context [match decrypt_seed ?x ?k with _ => _ end] =>
              destruct (decrypt_seed x k) eqn:?
          | |- context [match generate_totp_code ?x with _ => _ end] =>
              destruct (generate_totp_code x) eqn:?
          | |- context [match seconds_remaining_in_period ?x with _ => _ end] =>
              destruct (seconds_remaining_in_period x) eqn:?
          | |- context [match verify_totp_code ?x ?y ?z with _ => _ end] =>
              destruct (verify_totp_code x y z) eqn:?
          end).

Section HandlerFacts.
Context {C : Collaborators}.


(** X2. When the key loads and the decryption succeeds but the seed file
    cannot be written, the answer is [500, "Failed to persist seed"]: the
    decrypted seed is not part of it. *)
Theorem persist_failure_is_reported
        (body : DecryptSeedRequest) (w : World)
        (key : PrivateKey) (h : string) :
  load_private_key key_file = Ok key ->
  decrypt_seed (encrypted_seed body) key = Ok h ->
  seed_writable w = false ->
  fst (decrypt_seed_endpoint body w)
  = Err (mkHTTPException 500 "Failed to persist seed").
Proof.
  intros Hkey Hdec Hwr; run_handlers.
  rewrite Hkey; cbn beta iota.
  rewrite Hdec; cbn -[append].
  now rewrite Hwr.
Qed.

(** X3. decrypt-seed calls, in this order, the key loader, the decryption
    and the write, and stops at the first that fails: the events it adds to
    the trace are a prefix of these three, the decryption is attempted only
    with a loaded key, and the only text ever written is a decrypted seed
    followed by a newline. *)
Theorem decrypt_seed_calls (body : DecryptSeedRequest) (w : World) :
  exists events,
    trace (snd (decrypt_seed_endpoint body w)) = trace w ++ events
    /\ ((exists e, load_private_key key_file = Err e)
         /\ events = [EvLoadKey key_file]
        \/ (exists key e,
               load_private_key key_file = Ok key
               /\ decrypt_seed (encrypted_seed body) key = Err e)
           /\ events = [EvLoadKey key_file; EvDecrypt (encrypted_seed body)]
        \/ (exists key h,
               load_private_key key_file = Ok key
               /\ decrypt_seed (encrypted_seed body) key = Ok h
               /\ events = [EvLoadKey key_file;
                            EvDecrypt (encrypted_seed body);
                            EvWrite (h ++ newline)%string])).
Proof.
  run_handlers; split_calls; rewrite <- ?app_assoc;
    eexists; (split; [reflexivity|]); eauto 10.
Qed.

(** X4. health, generate-2fa and verify-2fa leave the seed file as it is:
    only decrypt-seed writes it. *)
Theorem readers_keep_the_seed (w : World) :
  same_store (snd (health w)) w
  /\ same_store (snd (generate_2fa w)) w
  /\ forall body, same_store (snd (verify_2fa body w)) w.
Proof.
  unfold same_store; repeat split; try intros body;
    run_handlers; split_calls; reflexivity.
Qed.

(** X5. When the seed file exists and cannot be read, generate-2fa, and
    verify-2fa on a code that is not blank, answer
    [500, "Error reading seed"], and the engine is not called: the file has
    been looked for and opened, nothing else. *)
Theorem unreadable_seed_is_reported (w : World) (text c : string) :
  seed_file w = Some text ->
  seed_readable w = false ->
  all_space c = false ->
  generate_2fa w
  = (Err (mkHTTPException 500 "Error reading seed"),
     log EvRead (log EvExists w))
  /\ verify_2fa {| code := Some c |} w
     = (Err (mkHTTPException 500 "Error reading seed"),
        log EvRead (log EvExists w)).
Proof.
  intros Hfile Hrd Hc; run_handlers; cbn [code seed_file seed_readable].
  now rewrite MainProps.strip_eqb_empty, Hc, Hfile, Hrd.
Qed.

(** X6. generate-2fa succeeds exactly when the seed file exists, can be
    read, and both [generate_totp_code], on the stripped text of the file,
    and [seconds_remaining_in_period(30)] return; the answer holds their
    two results. A failure of either gives no partial answer. *)
Theorem generate_2fa_succeeds_iff (w : World) (r : Response) :
  fst (generate_2fa w) = Ok r
  <-> exists text c valid_for,
      seed_file w = Some text
      /\ seed_readable w = true
      /\ generate_totp_code (strip (universal_newlines text)) = Ok c
      /\ seconds_remaining_in_period 30 = Ok valid_for
      /\ r = CodeResponse c valid_for.
Proof.
  run_handlers; split_calls; split;
    try discriminate;
    try (intros [= <-]; eauto 10);
    try (intros (text & c & v & Hfile & Hrd & Hgen & Hrem & ->);
         cbn; congruence).
Qed.

(** X7. verify-2fa succeeds exactly when the code is there and not blank,
    the seed file exists and can be read, and [verify_totp_code] returns on
    the stripped text of the file, the code as it was sent (not stripped)
    and window 1; the answer holds its verdict. A code that does not match
    is answered [{"valid": false}], not with an error. *)
Theorem verify_2fa_succeeds_iff
        (body : Verify2FARequest) (w : World) (r : Response) :
  fst (verify_2fa body w) = Ok r
  <-> exists c text valid,
      code body = Some c
      /\ all_space c = false
      /\ seed_file w = Some text
      /\ seed_readable w = true
      /\ verify_totp_code (strip (universal_newlines text)) c 1 = Ok valid
      /\ r = ValidResponse valid.
Proof.
  run_handlers; split_calls; split;
    try discriminate;
    try (intros [= <-]; eauto 12);
    try (intros (c & text & v & Hc & Hsp & Hfile & Hrd & Hver & ->);
         cbn; congruence).
Qed.

(** X8. verify-2fa answers with status 400 only a request whose code is
    absent or blank, and then with ["Missing code"]; every other failure of
    it has status 500 and comes from a request with a code that is not
    blank. *)
Theorem verify_2fa_failure_status
        (body : Verify2FARequest) (w : World) (h : HTTPException) :
  fst (verify_2fa body w) = Err h ->
  (h = code_is_missing
   /\ (code body = None
       \/ exists c, code body = Some c /\ all_space c = true))
  \/ (status_code h = 500
      /\ exists c, code body = Some c /\ all_space c = false).
Proof.
  run_handlers; split_calls; intros [= <-]; cbn; eauto 8.
Qed.

(** X13. The engine is only ever called on the stored seed: every call of
    [generate_totp_code] or [verify_totp_code] that generate-2fa and
    verify-2fa make has the stripped text of the readable seed file as its
    seed, and [verify_totp_code] gets the code of the request and
    window 1. *)
Theorem engine_calls_use_stored_seed (body : Verify2FARequest) (w : World) :
  (exists events,
      trace (snd (generate_2fa w)) = trace w ++ events
      /\ forall seed, In (EvGenerate seed) events ->
           exists text, seed_file w = Some text
                        /\ seed_readable w = true
                        /\ seed = strip (universal_newlines text))
  /\ (exists events,
         trace (snd (verify_2fa body w)) = trace w ++ events
         /\ forall seed c window, In (EvVerify seed c window) events ->
              exists text, seed_file w = Some text
                           /\ seed_readable w = true
                           /\ seed = strip (universal_newlines text)
                           /\ code body = Some c
                           /\ window = 1).
Proof.
  split; run_handlers; split_calls; cbn [snd trace];
    rewrite <- ?app_assoc; eexists;
    (split; [first [reflexivity | symmetry; apply app_nil_r]|]);
    cbn [app In];
    intros; repeat match goal with
                   | H : _ \/ _ |- _ => destruct H
                   | H : False |- _ => destruct H
                   | H : _ = _ :> Event |- _ => inversion H; clear H; subst
                   end;
    eauto 8.
Qed.


(** *** Stripping a text without whitespace *)

Lemma space_or_not_cr (c : ascii) :
  isspace c = false -> Ascii.eqb c cr = false.
Proof.
  destruct c as [[] [] [] [] [] [] [] []]; vm_compute; congruence.
Qed.

Lemma no_space_cons (c : ascii) (r : string) :
  no_space (String c r) = true -> isspace c = false /\ no_space r = true.
Proof.
  simpl; intros H; apply andb_prop in H as [Hc Hr].
  split; [now apply negb_true_iff | exact Hr].
Qed.

Lemma rstrip_no_space (h : string) :
  no_space h = true -> rstrip (h ++ newline) = h.
Proof.
  induction h as [|c r IH]; [reflexivity|].
  intros H; apply no_space_cons in H as [Hc Hr].
  change (rstrip (String c r ++ newline))
    with (match rstrip (r ++ newline) with
          | EmptyString =>
              if isspace c then EmptyString else String c EmptyString
          | r' => String c r'
          end).
  rewrite (IH Hr), Hc; now destruct r.
Qed.

Lemma lstrip_no_space (h : string) : no_space h = true -> lstrip h = h.
Proof.
  destruct h as [|c r]; [reflexivity|].
  intros H; apply no_space_cons in H as [Hc _]; simpl; now rewrite Hc.
Qed.

Lemma universal_newlines_no_space (h : string) :
  no_space h = true ->
  universal_newlines (h ++ newline) = (h ++ newline)%string.
Proof.
  induction h as [|c r IH]; [reflexivity|].
  intros H; apply no_space_cons in H as [Hc Hr].
  change (universal_newlines (String c r ++ newline))
    with (if Ascii.eqb c cr then
            match (r ++ newline)%string with
            | String d r' =>
                if Ascii.eqb d lf then String lf (universal_newlines r')
                else String lf (universal_newlines (r ++ newline))
            | EmptyString => String lf EmptyString
            end
          else String c (universal_newlines (r ++ newline))).
  now rewrite (space_or_not_cr c Hc), (IH Hr).
Qed.

(** X9. The round trip of the seed does not depend on its alphabet: after
    a decrypt-seed that succeeds with any text [h] free of whitespace
    (uppercase hexadecimal, say), the handlers read back exactly [h]. *)
Theorem whitespace_free_seed_round_trip
        (body : DecryptSeedRequest) (w : World)
        (key : PrivateKey) (h : string) :
  load_private_key key_file = Ok key ->
  decrypt_seed (encrypted_seed body) key = Ok h ->
  no_space h = true ->
  seed_writable w = true ->
  seed_readable w = true ->
  fst (read_seed (snd (decrypt_seed_endpoint body w))) = Ok h.
Proof.
  intros Hkey Hdec Hh Hwr Hrd; run_handlers.
  rewrite Hkey; cbn beta iota.
  rewrite Hdec; cbn -[strip universal_newlines append].
  rewrite Hwr; cbn -[strip universal_newlines append].
  rewrite Hrd; cbn -[strip universal_newlines append].
  rewrite universal_newlines_no_space by assumption.
  unfold strip; now rewrite rstrip_no_space, lstrip_no_space.
Qed.

(** *** A seed file that holds whitespace only *)

Lemma all_space_universal_newlines_bounded (n : nat) (s : string) :
  (String.length s <= n)%nat ->
  all_space s = true -> all_space (universal_newlines s) = true.
Proof.
  revert s; induction n as [|n IH]; intros [|c r] Hlen Hs;
    try reflexivity; simpl in Hlen; [lia|].
  simpl in Hs; apply andb_prop in Hs as [Hc Hr].
  simpl universal_newlines.
  destruct (Ascii.eqb c cr).
  - destruct r as [|d r']; [reflexivity|].
    simpl in Hr; apply andb_prop in Hr as [Hd Hr'].
    destruct (Ascii.eqb d lf).
    + change (all_space (universal_newlines r') = true).
      apply IH; [simpl in Hlen; lia | exact Hr'].
    + change (all_space (universal_newlines (String d r')) = true).
      apply IH; [simpl in *; lia | simpl; now rewrite Hd, Hr'].
  - simpl; rewrite Hc; apply IH; [lia | exact Hr].
Qed.

Lemma strip_blank_file (text : string) :
  all_space text = true -> strip (universal_newlines text) = EmptyString.
Proof.
  intros H; apply MainProps.strip_all_space.
  now apply (all_space_universal_newlines_bounded (String.length text)).
Qed.

(** X10. A seed file that exists but is empty or holds whitespace only is
    not taken for a missing seed: generate-2fa hands the empty string to
    [generate_totp_code] and answers with what comes of it. *)
Theorem blank_seed_file_reaches_engine (w : World) (text : string) :
  seed_file w = Some text ->
  seed_readable w = true ->
  all_space text = true ->
  fst (generate_2fa w)
  = match generate_totp_code "", seconds_remaining_in_period 30 with
    | Ok c, Ok valid_for => Ok (CodeResponse c valid_for)
    | _, _ => Err (mkHTTPException 500 "Error generating TOTP")
    end.
Proof.
  intros Hfile Hrd Hblank; run_handlers.
  cbn -[strip universal_newlines].
  rewrite Hfile, Hrd; cbn -[strip universal_newlines].
  rewrite (strip_blank_file text Hblank).
  destruct (generate_totp_code ""); [|reflexivity].
  destruct (seconds_remaining_in_period 30); reflexivity.
Qed.

(** *** Sequences of requests *)

Lemma handle_keeps_presence (request : Request) (w : World) :
  seed_file w <> None -> seed_file (snd (handle request w)) <> None.
Proof.
  intros Hfile; destruct request; run_handlers; split_calls;
    cbn; congruence.
Qed.

Lemma handle_finds_seed (request : Request) (w : World) :
  seed_file w <> None -> fst (handle request w) <> Err seed_missing.
Proof.
  intros Hfile; destruct request; run_handlers; split_calls;
    cbn; try discriminate; congruence.
Qed.

End HandlerFacts.

(** X11. No request removes the seed file: once it exists it exists after
    any sequence of requests, failed ones included, and none of them is
    answered [500, "Seed not decrypted yet"]. *)
Theorem seed_stays_present
        (requests : list (Collaborators * Request)) (w : World) :
  seed_file w <> None ->
  seed_file (snd (serve requests w)) <> None
  /\ ~ In (Err seed_missing) (fst (serve requests w)).
Proof.
  revert w; induction requests as [|[C request] rest IH]; intros w Hfile.
  - split; [exact Hfile | intros []].
  - simpl.
    pose proof (handle_keeps_presence (C := C) request w Hfile) as Hnext.
    pose proof (handle_finds_seed (C := C) request w Hfile) as Hanswer.
    destruct (handle request w) as [answer w'].
    specialize (IH w' Hnext).
    destruct (serve rest w') as [answers w'']; simpl in *.
    destruct IH as [IHfile IHanswers]; split; [exact IHfile|].
    intros [Hhere | Hlater]; [now apply Hanswer | now apply IHanswers].
Qed.

(** *** The handlers over the TotpEngine *)

Lemma digit_not_space (c : ascii) : is_digit c = true -> isspace c = false.
Proof.
  destruct c as [[] [] [] [] [] [] [] []]; vm_compute; congruence.
Qed.

Lemma code_not_blank (digits : nat) (c : string) :
  digits <> O -> well_formed digits c = true -> all_space c = false.
Proof.
  unfold well_formed; intros Hd H; apply andb_prop in H as [Hlen Hdigits].
  destruct c as [|a r].
  - apply Nat.eqb_eq in Hlen; simpl in Hlen; congruence.
  - simpl in Hdigits; apply andb_prop in Hdigits as [Ha _].
    simpl; now rewrite (digit_not_space a Ha).
Qed.

(** With window 1 the engine accepts at [t2] the code of any time [t1] at
    most one step away. *)
Lemma verify_within_one_step (secretHex : string) (key : list Z) (t1 t2 : Z) :
  decode_secret secretHex = Ok key ->
  Z.abs (t2 - t1) <= 30 ->
  verify secretHex (hotp key (t1 / 30) 6) t2 1 30 = Ok true.
Proof.
  intros Hkey Hnear.
  rewrite (TotpProps.verify_characterisation _ _ key)
    by (auto using TotpProps.hotp_well_formed).
  change (offsets 1) with [-1; 0; 1]; cbn [existsb].
  rewrite !Z.div_add by lia.
  assert (Hstep : t1 / 30 = t2 / 30 + -1 \/ t1 / 30 = t2 / 30 + 0
                  \/ t1 / 30 = t2 / 30 + 1)
    by (pose proof (Z.div_mod t1 30); pose proof (Z.div_mod t2 30);
        pose proof (Z.mod_pos_bound t1 30);
        pose proof (Z.mod_pos_bound t2 30); lia).
  destruct Hstep as [-> | [-> | ->]]; rewrite String.eqb_refl;
    repeat (rewrite orb_true_l || rewrite orb_true_r); reflexivity.
Qed.

(** X12. When [generate_totp_code] and [verify_totp_code] are the
    TotpEngine read at the clocks [t1] and [t2], at most 30 seconds apart,
    and the seed file holds a valid secret, the code that generate-2fa
    returns at [t1] is answered [{"valid": true}] by verify-2fa at [t2]. *)
Theorem generated_code_is_accepted
        (C1 C2 : Collaborators) (t1 t2 : Z) (w : World) (text : string) :
  (forall h, generate_totp_code (Collaborators := C1) h
             = lift (generate h t1 6 30)) ->
  seconds_remaining_in_period (Collaborators := C1) 30
  = Ok (secondsRemainingInPeriod t1 30) ->
  (forall h c, verify_totp_code (Collaborators := C2) h c 1
               = lift (verify h c t2 1 30)) ->
  seed_file w = Some text ->
  seed_readable w = true ->
  valid_secret (strip (universal_newlines text)) ->
  Z.abs (t2 - t1) <= 30 ->
  exists c,
    fst (generate_2fa (C := C1) w)
    = Ok (CodeResponse c (secondsRemainingInPeriod t1 30))
    /\ fst (verify_2fa (C := C2) {| code := Some c |}
                       (snd (generate_2fa (C := C1) w)))
       = Ok (ValidResponse true).
Proof.
  intros Hgen Hrem Hver Hfile Hrd Hvalid Hnear.
  apply TotpProps.decode_valid in Hvalid as [key Hkey].
  remember (strip (universal_newlines text)) as seed eqn:Hseed.
  remember (hotp key (t1 / 30) 6) as c eqn:Hc.
  assert (Hcode : generate_totp_code (Collaborators := C1) seed = Ok c)
    by (rewrite Hgen, (TotpProps.generate_ok _ key), Hc by exact Hkey;
        reflexivity).
  assert (Hblank : all_space c = false)
    by (rewrite Hc; apply (code_not_blank 6); [discriminate|];
        apply TotpProps.hotp_well_formed).
  assert (Hverdict : verify_totp_code (Collaborators := C2) seed c 1
                     = Ok true)
    by (rewrite Hver, Hc;
        rewrite (verify_within_one_step _ key) by assumption; reflexivity).
  exists c; run_handlers; cbn [code seed_file seed_readable].
  rewrite (MainProps.strip_eqb_empty c), Hblank, Hfile, Hrd.
  cbn -[strip universal_newlines]; rewrite <- Hseed.
  rewrite Hcode; cbn -[strip universal_newlines secondsRemainingInPeriod].
  rewrite Hrem; cbn -[strip universal_newlines secondsRemainingInPeriod].
  rewrite <- Hseed, Hverdict; split; reflexivity.
Qed.

(** *** The theorems on sample requests *)


Lemma persist_failure_is_reported_witness :
  seed_writable read_only = false
  /\ fst (decrypt_seed_endpoint (C := engine_at 59)
            {| encrypted_seed := "c2VlZA==" |} read_only)
     = Err (mkHTTPException 500 "Failed to persist seed").
Proof.
  split; [reflexivity|].
  apply (persist_failure_is_reported (C := engine_at 59)
           {| encrypted_seed := "c2VlZA==" |} read_only tt rfc_secret);
    reflexivity.
Defined.

Lemma unreadable_seed_is_reported_witness :
  seed_readable unreadable = false
  /\ generate_2fa (C := engine_at 59) unreadable
     = (Err (mkHTTPException 500 "Error reading seed"),
        log EvRead (log EvExists unreadable))
  /\ verify_2fa (C := engine_at 59) {| code := Some "287082"%string |}
                unreadable
     = (Err (mkHTTPException 500 "Error reading seed"),
        log EvRead (log EvExists unreadable)).
Proof.
  split; [reflexivity|].
  apply (unreadable_seed_is_reported (C := engine_at 59) unreadable
           (rfc_secret ++ newline) "287082"); reflexivity.
Defined.

Lemma generate_2fa_succeeds_iff_witness :
  fst (generate_2fa (C := engine_at 59) provisioned)
  = Ok (CodeResponse "287082" 1).
Proof.
  apply (generate_2fa_succeeds_iff (C := engine_at 59) provisioned
           (CodeResponse "287082" 1)).
  exists (rfc_secret ++ newline)%string, "287082"%string, 1.
  repeat split; vm_compute; reflexivity.
Defined.

Lemma verify_2fa_succeeds_iff_witness :
  fst (verify_2fa (C := engine_at 59) {| code := Some "000000"%string |}
                  provisioned)
  = Ok (ValidResponse false).
Proof.
  apply (verify_2fa_succeeds_iff (C := engine_at 59)
           {| code := Some "000000"%string |} provisioned
           (ValidResponse false)).
  exists "000000"%string, (rfc_secret ++ newline)%string, false.
  repeat split; vm_compute; reflexivity.
Defined.

Lemma verify_2fa_failure_status_witness :
  fst (verify_2fa (C := engine_at 59) {| code := Some "287082"%string |}
                  fresh) = Err seed_missing
  /\ (seed_missing = code_is_missing
       /\ (Some "287082"%string = None
           \/ exists c, Some "287082"%string = Some c
                        /\ all_space c = true)
      \/ status_code seed_missing = 500
         /\ exists c, Some "287082"%string = Some c /\ all_space c = false).
Proof.
  split; [reflexivity|].
  apply (verify_2fa_failure_status (C := engine_at 59)
           {| code := Some "287082"%string |} fresh seed_missing);
    reflexivity.
Defined.

Lemma whitespace_free_seed_round_trip_witness :
  no_space "3132333435363738393031323334353637383930ABCDEF" = true
  /\ fst (read_seed
            (snd (decrypt_seed_endpoint
                    (C := decrypting_to
                            "3132333435363738393031323334353637383930ABCDEF")
                    {| encrypted_seed := "c2VlZA==" |} fresh)))
     = Ok "3132333435363738393031323334353637383930ABCDEF"%string.
Proof.
  split; [reflexivity|].
  apply (whitespace_free_seed_round_trip
           (C := decrypting_to
                   "3132333435363738393031323334353637383930ABCDEF")
           {| encrypted_seed := "c2VlZA==" |} fresh tt); reflexivity.
Defined.

Lemma blank_seed_file_reaches_engine_witness :
  all_space newline = true
  /\ fst (generate_2fa (C := engine_at 59) blank)
     = Err (mkHTTPException 500 "Error generating TOTP").
Proof.
  split; [reflexivity|].
  apply (blank_seed_file_reaches_engine (C := engine_at 59) blank newline);
    reflexivity.
Defined.

Lemma seed_stays_present_witness :
  seed_file provisioned <> None
  /\ seed_file
       (snd (serve [(missing_key 59,
                     PostDecryptSeed {| encrypted_seed := "c2VlZA==" |});
                    (engine_at 59, PostDecryptSeed {| encrypted_seed := "" |});
                    (engine_at 59, GetGenerate2fa)]
                   provisioned)) <> None
  /\ ~ In (Err seed_missing)
          (fst (serve [(missing_key 59,
                        PostDecryptSeed {| encrypted_seed := "c2VlZA==" |});
                       (engine_at 59,
                        PostDecryptSeed {| encrypted_seed := "" |});
                       (engine_at 59, GetGenerate2fa)]
                      provisioned)).
Proof.
  split; [discriminate|].
  apply (seed_stays_present
           [(missing_key 59,
             PostDecryptSeed {| encrypted_seed := "c2VlZA==" |});
            (engine_at 59, PostDecryptSeed {| encrypted_seed := "" |});
            (engine_at 59, GetGenerate2fa)]
           provisioned); discriminate.
Defined.

Lemma generated_code_is_accepted_witness :
  Z.abs (80 - 59) <= 30
  /\ exists c,
      fst (generate_2fa (C := engine_at 59) provisioned)
      = Ok (CodeResponse c (secondsRemainingInPeriod 59 30))
      /\ fst (verify_2fa (C := engine_at 80) {| code := Some c |}
                         (snd (generate_2fa (C := engine_at 59) provisioned)))
         = Ok (ValidResponse true).
Proof.
  split; [vm_compute; discriminate|].
  apply (generated_code_is_accepted (engine_at 59) (engine_at 80) 59 80
           provisioned (rfc_secret ++ newline)%string);
    try reflexivity; try (intros; reflexivity).
  - eexists; split; [vm_compute; reflexivity | discriminate].
  - vm_compute; discriminate.
Defined.


End ServiceProps.
